(** * Travel-agent sample: tool functions and driver

    A shallow embedding of
    [01-intro-to-ai-agents/code_samples/01-python-agent-framework.py].

    The script is straight-line Python that talks to its environment: the
    random module, the clock, [time.sleep], the process environment,
    standard output and the agent framework.  A Python function is embedded
    as a finite program tree ([Prog]) over the calls it makes, and run
    against an explicit [World]; an exception ends the run, as the script
    has no [try].

    Conventions:
    - a Python [str] is a [string] holding its UTF-8 bytes;
    - a Python [float] holding a duration is a rational ([Q]): rounding of
      binary floating point is not modelled;
    - a Python [int] is a [Z]. *)

From Stdlib Require Import ZArith QArith String Ascii List Lia Bool.
From Stdlib Require Import DecimalString.
From stdpp Require Import base gmap strings.

Local Open Scope string_scope.
Local Open Scope Z_scope.

(** ** Exceptions and results *)

(** A raised exception: the name of its class and its message.  A
    [SystemExit] whose code is an integer or [None] is kept apart, as the
    interpreter ends with that code; one with any other code is a [PyExn]
    of class SystemExit, its message the code. *)
Inductive Exn : Type :=
| PyExn (cls : string) (msg : string)
| SystemExit (code : option Z).

(** [raise Exception(msg)]. *)
Definition Exception (msg : string) : Exn := PyExn "Exception" msg.
(** What [l[i]] raises when [i] is out of range. *)
Definition IndexError : Exn := PyExn "IndexError" "list index out of range".
(** What [time.sleep] raises on a negative duration. *)
Definition ValueError_sleep : Exn :=
  PyExn "ValueError" "sleep length must be non-negative".
(** [str(n)] for an integer [n]. *)
Definition int_str (n : Z) : string := NilZero.string_of_int (Z.to_int n).

(** What [randint(a, b)], which is [randrange(a, b + 1)], raises when
    [b < a]: the message names start, stop and width. *)
Definition ValueError_randrange (a b : Z) : Exn :=
  PyExn "ValueError"
        ("empty range for randrange() (" +:+ int_str a +:+ ", "
           +:+ int_str (b + 1) +:+ ", " +:+ int_str (b + 1 - a) +:+ ")").

Inductive Result (A : Type) : Type :=
| Ok (a : A)
| Raised (e : Exn).
Arguments Ok {A} a.
Arguments Raised {A} e.

Definition is_raised {A} (r : Result A) : bool :=
  match r with Ok _ => false | Raised _ => true end.

(** ** Dates *)

(** A [datetime.datetime] value.  [tzinfo] is the UTC offset in minutes of
    an aware value and [None] for a naive one. *)
Record DateTime : Type := mkDateTime {
  year : Z; month : Z; day : Z;
  hour : Z; minute : Z; second : Z; microsecond : Z;
  tzinfo : option Z
}.

(** [datetime.now()] is called without a [tz], so its value is naive. *)
Definition naive (d : DateTime) : DateTime :=
  mkDateTime (year d) (month d) (day d)
             (hour d) (minute d) (second d) (microsecond d) None.

(** ** The world a run acts on *)

Record World : Type := mkWorld {
  (** the random source: an unbounded tape of entropy words ... *)
  entropy : nat -> N;
  (** ... and how many of them have been consumed *)
  cursor : nat;
  (** seconds spent in [time.sleep] so far *)
  elapsed : Q;
  (** the local wall clock, as a function of the time slept *)
  wallclock : Q -> DateTime;
  (** the process environment, [os.environ] *)
  environ : gmap string string;
  (** what has been written to standard output, oldest first *)
  stdout : string;
  (** the encoder of standard output: for a text it cannot encode, the
      message of the [UnicodeEncodeError] it raises *)
  stdout_rejects : string -> option string
}.

Definition next_word (w : World) : N := entropy w (cursor w).

Definition advance (w : World) : World :=
  mkWorld (entropy w) (S (cursor w)) (elapsed w) (wallclock w)
          (environ w) (stdout w) (stdout_rejects w).

Definition add_elapsed (d : Q) (w : World) : World :=
  mkWorld (entropy w) (cursor w) (elapsed w + d)%Q (wallclock w)
          (environ w) (stdout w) (stdout_rejects w).

Definition write_stdout (s : string) (w : World) : World :=
  mkWorld (entropy w) (cursor w) (elapsed w) (wallclock w)
          (environ w) (stdout w +:+ s) (stdout_rejects w).

(** ** Programs *)

(** A program over the calls [E]: it returns, raises, or makes a call and
    goes on with the value the call returned.  A call that raises ends the
    program with that exception. *)
Inductive Prog (E : Type -> Type) (A : Type) : Type :=
| Ret (a : A)
| Raise (e : Exn)
| Vis {X : Type} (ev : E X) (k : X -> Prog E A).
Arguments Ret {E A} a.
Arguments Raise {E A} e.
Arguments Vis {E A X} ev k.

Fixpoint bind {E A B} (p : Prog E A) (f : A -> Prog E B) : Prog E B :=
  match p with
  | Ret a => f a
  | Raise e => Raise e
  | Vis ev k => Vis ev (fun x => bind (k x) f)
  end.

Definition call {E X} (ev : E X) : Prog E X := Vis ev Ret.

Notation "x <- p ;; q" := (bind p (fun x => q))
  (at level 100, p at next level, right associativity).
Notation "p ;; q" := (bind p (fun _ => q))
  (at level 100, right associativity).

(** The outcome of a run: the result, the world left behind, and the calls
    made, oldest first. *)
Record Run (E : Type -> Type) (A : Type) : Type := mkRun {
  result : Result A;
  final : World;
  calls : list (sigT E)
}.
Arguments mkRun {E A} result final calls.
Arguments result {E A} r.
Arguments final {E A} r.
Arguments calls {E A} r.

Definition logged {E A} (c : sigT E) (r : Run E A) : Run E A :=
  mkRun (result r) (final r) (c :: calls r).

Fixpoint exec {E A} (h : forall X, E X -> World -> Result X * World)
         (p : Prog E A) (w : World) : Run E A :=
  match p with
  | Ret a => mkRun (Ok a) w []
  | Raise e => mkRun (Raised e) w []
  | Vis ev k =>
      logged (existT _ ev)
        match h _ ev w with
        | (Ok x, w') => exec h (k x) w'
        | (Raised e, w') => mkRun (Raised e) w' []
        end
  end.

(** ** The calls of a tool function *)

Inductive ToolE : Type -> Type :=
| Uniform (a b : Q) : ToolE Q          (* random.uniform(a, b) *)
| Randint (a b : Z) : ToolE Z          (* random.randint(a, b) *)
| Sleep (secs : Q) : ToolE unit        (* time.sleep(secs) *)
| DatetimeNow : ToolE DateTime.        (* datetime.now() *)

(** [random.random()]: the next entropy word read as a 53-bit fraction of
    the unit interval, so [0 <= random() < 1]. *)
Definition unit_fraction (r : N) : Q :=
  Z.of_N (r mod 2 ^ 53)%N # 2 ^ 53.

(** [random.uniform(a, b)] is [a + (b - a) * random()]. *)
Definition uniform_value (a b : Q) (r : N) : Q :=
  (a + (b - a) * unit_fraction r)%Q.

(** [random.randint(a, b)] returns an integer [N] with [a <= N <= b]; the
    next entropy word selects it, one residue class for each value. *)
Definition randint_value (a b : Z) (r : N) : Z :=
  a + Z.of_N r mod (b - a + 1).

Definition tool_handler (X : Type) (ev : ToolE X) (w : World)
  : Result X * World :=
  match ev in ToolE X return Result X * World with
  | Uniform a b => (Ok (uniform_value a b (next_word w)), advance w)
  | Randint a b =>
      if b <? a then (Raised (ValueError_randrange a b), w)
      else (Ok (randint_value a b (next_word w)), advance w)
  | Sleep secs =>
      if Qle_bool 0 secs then (Ok tt, add_elapsed secs w)
      else (Raised ValueError_sleep, w)
  | DatetimeNow => (Ok (naive (wallclock w (elapsed w))), w)
  end.

Definition uniform (a b : Q) : Prog ToolE Q := call (Uniform a b).
Definition randint (a b : Z) : Prog ToolE Z := call (Randint a b).
Definition time_sleep (secs : Q) : Prog ToolE unit := call (Sleep secs).
Definition datetime_now : Prog ToolE DateTime := call DatetimeNow.

(** Running a tool function. *)
Definition run_tool {A} (p : Prog ToolE A) (w : World) : Run ToolE A :=
  exec tool_handler p w.

(** ** Python lists *)

(** [l[i]] for a list [l] and an integer [i]: a negative [i] counts from
    the end, and an index outside [-len(l) .. len(l) - 1] raises. *)
Definition getitem {A} (l : list A) (i : Z) : Result A :=
  let n := Z.of_nat (length l) in
  let j := if i <? 0 then i + n else i in
  if (j <? 0) || (n <=? j) then Raised IndexError
  else match nth_error l (Z.to_nat j) with
       | Some x => Ok x
       | None => Raised IndexError
       end.

Definition lift {E A} (r : Result A) : Prog E A :=
  match r with Ok a => Ret a | Raised e => Raise e end.

(** ** Tool functions *)

Definition destinations : list string :=
  [ "Garmisch-Partenkirchen, Germany";
    "Munich, Germany";
    "Barcelona, Spain";
    "Paris, France";
    "Berlin, Germany";
    "Tokyo, Japan";
    "Sydney, Australia";
    "New York, USA";
    "Cairo, Egypt";
    "Cape Town, South Africa";
    "Rio de Janeiro, Brazil";
    "Bali, Indonesia" ].

Definition get_random_destination : Prog ToolE string :=
  delay_seconds <- uniform 0 (99 # 100) ;;
  time_sleep delay_seconds ;;
  i <- randint 0 (Z.of_nat (length destinations) - 1) ;;
  lift (getitem destinations i).

Definition weather_unavailable : string :=
  "Weather service is currently unavailable. Please try again later.".

Definition get_weather (location : string) : Prog ToolE string :=
  delay_seconds <- uniform (3 # 10) (37 # 10) ;;
  time_sleep delay_seconds ;;
  r <- randint 1 10 ;;
  if r >? 7 then Raise (Exception weather_unavailable)
  else Ret ("The weather in " +:+ location
              +:+ " is cloudy with a high of 15°C.").

(** *** Formatting a date *)

(** The decimal digits of a non-negative integer. *)
Definition decimal (n : Z) : string :=
  NilZero.string_of_uint (N.to_uint (Z.to_N n)).

Fixpoint zeros (k : nat) : string :=
  match k with
  | O => ""
  | S k' => String "0" (zeros k')
  end.

Definition zfill (width : nat) (s : string) : string :=
  zeros (width - String.length s) +:+ s.

(** ["%0<width>d" % n]: at least [width] characters, padded with zeros
    after the sign. *)
Definition fmt_d (width : nat) (n : Z) : string :=
  if n <? 0 then "-" +:+ zfill (width - 1) (decimal (- n))
  else zfill width (decimal n).

(** The [timespec] argument of [isoformat]. *)
Inductive Timespec : Type :=
| TsAuto | TsHours | TsMinutes | TsSeconds | TsMilliseconds | TsMicroseconds.

(** [datetime._format_time]. *)
Definition format_time (hh mm ss us : Z) (timespec : Timespec) : string :=
  let hms := fmt_d 2 hh +:+ ":" +:+ fmt_d 2 mm +:+ ":" +:+ fmt_d 2 ss in
  match timespec with
  | TsHours => fmt_d 2 hh
  | TsMinutes => fmt_d 2 hh +:+ ":" +:+ fmt_d 2 mm
  | TsSeconds => hms
  | TsMilliseconds => hms +:+ "." +:+ fmt_d 3 (us / 1000)
  | TsMicroseconds => hms +:+ "." +:+ fmt_d 6 us
  | TsAuto => if us =? 0 then hms else hms +:+ "." +:+ fmt_d 6 us
  end.

(** [datetime._format_offset], for an offset of whole minutes. *)
Definition format_offset (off : option Z) : string :=
  match off with
  | None => ""
  | Some m =>
      let sign := if m <? 0 then "-" else "+" in
      let a := Z.abs m in
      sign +:+ fmt_d 2 (a / 60) +:+ ":" +:+ fmt_d 2 (a mod 60)
  end.

(** [datetime.isoformat(sep, timespec)]. *)
Definition isoformat (sep : ascii) (timespec : Timespec) (d : DateTime)
  : string :=
  fmt_d 4 (year d) +:+ "-" +:+ fmt_d 2 (month d) +:+ "-" +:+ fmt_d 2 (day d)
    +:+ String sep ""
    +:+ format_time (hour d) (minute d) (second d) (microsecond d) timespec
    +:+ format_offset (tzinfo d).

Definition get_datetime : Prog ToolE string :=
  delay_seconds <- uniform (1 # 10) 5 ;;
  time_sleep delay_seconds ;;
  now <- datetime_now ;;
  Ret (isoformat " " TsSeconds now).

(** ** The agent framework *)

(** Modelled from the spec: the response type of the agent framework, which
    is not part of the script.  A response holds an ordered sequence of
    messages (role, content); the driver reads the text of a content
    block. *)
Record Content : Type := mkContent { text : string }.
Record Message : Type := mkMessage { role : string; contents : list Content }.
Record Response : Type := mkResponse { messages : list Message }.

(** A chat client, as the keyword arguments it is constructed from;
    [None] is Python's [None]. *)
Record OpenAIChatClient : Type := mkClient {
  base_url : option string;
  api_key : option string;
  model_id : option string
}.

(** A tool handed to the agent: a function, under its name. *)
Inductive Tool : Type :=
| Tool0 (name : string) (f : Prog ToolE string)
| Tool1 (name : string) (f : string -> Prog ToolE string).

Definition tool_name (t : Tool) : string :=
  match t with Tool0 n _ => n | Tool1 n _ => n end.

(** An agent, as the keyword arguments it is constructed from. *)
Record ChatAgent : Type := mkAgent {
  chat_client : OpenAIChatClient;
  instructions : string;
  tools : list Tool
}.

(** ** The calls of the driver *)

Inductive DriverE : Type -> Type :=
| SetupObservability (enable_sensitive_data : bool) (exporters : list string)
    : DriverE unit
| LoadDotenv : DriverE bool
| EnvironGet (key : string) : DriverE (option string)
| NewOpenAIChatClient (c : OpenAIChatClient) : DriverE unit
| NewChatAgent (a : ChatAgent) : DriverE unit
| AgentRun (a : ChatAgent) (prompt : string) : DriverE Response
| Print (s : string) : DriverE unit.

(** What the script does not define: the framework and [dotenv].  Each
    entry may change the world and may raise. *)
Record Collaborators : Type := mkCollaborators {
  setup_observability_impl :
    bool -> list string -> World -> Result unit * World;
  load_dotenv_impl : World -> Result bool * World;
  client_init_impl : OpenAIChatClient -> World -> Result unit * World;
  agent_init_impl : ChatAgent -> World -> Result unit * World;
  agent_run_impl : ChatAgent -> string -> World -> Result Response * World
}.

Definition newline : string := String (ascii_of_nat 10) "".

Definition driver_handler (c : Collaborators) (X : Type) (ev : DriverE X)
           (w : World) : Result X * World :=
  match ev in DriverE X return Result X * World with
  | SetupObservability sens exps => setup_observability_impl c sens exps w
  | LoadDotenv => load_dotenv_impl c w
  | EnvironGet key => (Ok (environ w !! key), w)
  | NewOpenAIChatClient cl => client_init_impl c cl w
  | NewChatAgent a => agent_init_impl c a w
  | AgentRun a prompt => agent_run_impl c a prompt w
  | Print s =>
      match stdout_rejects w s with
      | Some msg => (Raised (PyExn "UnicodeEncodeError" msg), w)
      | None => (Ok tt, write_stdout (s +:+ newline) w)
      end
  end.

Definition environ_get (key : string) : Prog DriverE (option string) :=
  call (EnvironGet key).
Definition print (s : string) : Prog DriverE unit := call (Print s).

(** ** The driver *)

Definition userPrompt : string :=
  "Plan me a day trip with activities and calculate the current weather at the destination. Mention the current date and time of the plan.".

Definition travel_plan_header : string := "🏖️ Travel plan:".

(** [main], over the module-level [agent]. *)
Definition main (agent : ChatAgent) : Prog DriverE unit :=
  response <- call (AgentRun agent userPrompt) ;;
  last_message <- lift (getitem (messages response) (-1)) ;;
  first_block <- lift (getitem (contents last_message) 0) ;;
  let text_content := text first_block in
  print travel_plan_header ;;
  print text_content.

Definition agent_instructions : string :=
  "You are a helpful AI Agent that can help plan vacations for customers at random destinations.".

Definition agent_tools : list Tool :=
  [ Tool0 "get_random_destination" get_random_destination;
    Tool1 "get_weather" get_weather;
    Tool0 "get_datetime" get_datetime ].

(** The module-level statements, top to bottom: they leave the global
    [agent]. *)
Definition module_setup : Prog DriverE ChatAgent :=
  call (SetupObservability true ["otlp"]) ;;
  call LoadDotenv ;;
  base_url <- environ_get "GITHUB_ENDPOINT" ;;
  api_key <- environ_get "GITHUB_TOKEN" ;;
  model_id <- environ_get "GITHUB_MODEL_ID" ;;
  let openai_chat_client := mkClient base_url api_key model_id in
  call (NewOpenAIChatClient openai_chat_client) ;;
  let agent := mkAgent openai_chat_client agent_instructions agent_tools in
  call (NewChatAgent agent) ;;
  Ret agent.

(** The module run as [__main__]: its statements, then
    [asyncio.run(main())]. *)
Definition script : Prog DriverE unit :=
  agent <- module_setup ;;
  main agent.

Definition run_driver {A} (c : Collaborators) (p : Prog DriverE A)
           (w : World) : Run DriverE A :=
  exec (driver_handler c) p w.

(** The status [sys.exit(code)] ends the process with, as a POSIX parent
    sees it: 0 for [None], else the low byte of the code (255 for a code
    that does not fit a C long). *)
Definition system_exit_status (code : option Z) : Z :=
  match code with
  | None => 0
  | Some n =>
      if (- 2 ^ 63 <=? n) && (n <? 2 ^ 63) then n mod 256 else 255
  end.

(** The exit status of the process, as a POSIX shell reports it: 0 when
    the module runs to its end; for an exception that reaches the top
    level, the status a [SystemExit] carries, 130 for a
    [KeyboardInterrupt] (the interpreter ends itself by SIGINT), and 1,
    after a traceback, for any other. *)
Definition exit_status {A} (r : Result A) : Z :=
  match r with
  | Ok _ => 0
  | Raised (SystemExit code) => system_exit_status code
  | Raised (PyExn cls _) =>
      if String.eqb cls "KeyboardInterrupt" then 130 else 1
  end.

(** ** Varying the random source *)

(** The world [w] with the entropy word at position [i] replaced by [r]. *)
Definition reseed (w : World) (i : nat) (r : N) : World :=
  mkWorld (fun j => if Nat.eqb j i then r else entropy w j)
          (cursor w) (elapsed w) (wallclock w) (environ w) (stdout w)
          (stdout_rejects w).

(** The first [n] entropy words, [0 .. n-1]: one for each value a
    [randint] over [n] values can take. *)
Definition words (n : nat) : list N := map N.of_nat (seq 0 n).

(** The share of the equally likely [outcomes] on which [event] holds. *)
Definition probability {A} (event : A -> bool) (outcomes : list A) : Q :=
  Z.of_nat (length (List.filter event outcomes))
    # Pos.of_nat (length outcomes).

#[global] Instance Exn_eq_dec : EqDecision Exn.
Proof. solve_decision. Defined.

#[global] Instance Result_eq_dec {A} `{EqDecision A} : EqDecision (Result A).
Proof. solve_decision. Defined.

(** The integer the [randint(1, 10)] of [get_weather] draws in [w]: the
    second entropy word of the call, after the one [uniform] takes. *)
Definition weather_draw (w : World) : Z :=
  randint_value 1 10 (entropy w (S (cursor w))).

(** The index the [randint] of [get_random_destination] draws in [w]. *)
Definition destination_draw (w : World) : Z :=
  randint_value 0 (Z.of_nat (length destinations) - 1)
                (entropy w (S (cursor w))).

(** The text [get_weather] returns for [location]. *)
Definition weather_report (location : string) : string :=
  "The weather in " +:+ location +:+ " is cloudy with a high of 15°C.".

(** ** Reading a timestamp back *)

(** The field values a [datetime] can hold (a day is further bounded by
    its month). *)
Definition valid_datetime (d : DateTime) : Prop :=
  1 <= year d <= 9999 /\ 1 <= month d <= 12 /\ 1 <= day d <= 31
  /\ 0 <= hour d <= 23 /\ 0 <= minute d <= 59 /\ 0 <= second d <= 59
  /\ 0 <= microsecond d <= 999999.

(** ['0' <= c <= '9'], on the character code. *)
Definition is_digit (c : ascii) : bool :=
  (48 <=? N_of_ascii c)%N && (N_of_ascii c <=? 57)%N.

Definition digit_value (c : ascii) : Z := Z.of_N (N_of_ascii c) - 48.

(** A pattern gives, for each position, a fixed character or ([None]) any
    decimal digit; a string matches when it has the pattern's length and
    agrees with it at each position. *)
Fixpoint matches (pat : list (option ascii)) (s : string) : bool :=
  match pat, s with
  | [], EmptyString => true
  | None :: pat', String c s' => is_digit c && matches pat' s'
  | Some x :: pat', String c s' => Ascii.eqb c x && matches pat' s'
  | _, _ => false
  end.

(** [YYYY-MM-DD HH:MM:SS]. *)
Definition timestamp_pattern : list (option ascii) :=
  let d := None in
  [ d; d; d; d; Some "-"%char; d; d; Some "-"%char; d; d; Some " "%char;
    d; d; Some ":"%char; d; d; Some ":"%char; d; d ].

(** The number written by a string of digits, after [acc]. *)
Fixpoint number (s : string) (acc : Z) : Z :=
  match s with
  | EmptyString => acc
  | String c s' => number s' (10 * acc + digit_value c)
  end.

(** The number written at positions [start .. start + len - 1] of [s]. *)
Definition field (s : string) (start len : nat) : Z :=
  number (substring start len s) 0.

Definition two_digits (n : Z) : bool :=
  match fmt_d 2 n with
  | String c1 (String c2 EmptyString) =>
      is_digit c1 && is_digit c2
      && (10 * digit_value c1 + digit_value c2 =? n)
  | _ => false
  end.

Definition four_digits (n : Z) : bool :=
  match fmt_d 4 n with
  | String c1 (String c2 (String c3 (String c4 EmptyString))) =>
      is_digit c1 && is_digit c2 && is_digit c3 && is_digit c4
      && (1000 * digit_value c1 + 100 * digit_value c2
          + 10 * digit_value c3 + digit_value c4 =? n)
  | _ => false
  end.

(** ** Reading the calls of a run *)

(** The [(agent, prompt)] of each [agent.run] call. *)
Definition run_calls (l : list (sigT DriverE)) : list (ChatAgent * string) :=
  omap (fun c => match projT2 c with
                 | AgentRun a p => Some (a, p)
                 | _ => None
                 end) l.

(** The arguments of each [ChatAgent(...)] call. *)
Definition agent_ctor_calls (l : list (sigT DriverE)) : list ChatAgent :=
  omap (fun c => match projT2 c with
                 | NewChatAgent a => Some a
                 | _ => None
                 end) l.

(** The arguments of each [OpenAIChatClient(...)] call. *)
Definition client_ctor_calls (l : list (sigT DriverE))
  : list OpenAIChatClient :=
  omap (fun c => match projT2 c with
                 | NewOpenAIChatClient cl => Some cl
                 | _ => None
                 end) l.

(** The argument of each [print] call. *)
Definition print_calls (l : list (sigT DriverE)) : list string :=
  omap (fun c => match projT2 c with
                 | Print s => Some s
                 | _ => None
                 end) l.

(** ** Stand-ins for the framework *)

(** Collaborators that set up without an exception and leave the world as
    it is, around a given [agent.run]. *)
Definition stub_collaborators
           (run : ChatAgent -> string -> World -> Result Response * World)
  : Collaborators :=
  mkCollaborators (fun _ _ w => (Ok tt, w)) (fun w => (Ok true, w))
                  (fun _ w => (Ok tt, w)) (fun _ w => (Ok tt, w)) run.

(** An [agent.run] that answers with the given messages. *)
Definition canned_run (ms : list Message)
  : ChatAgent -> string -> World -> Result Response * World :=
  fun _ _ w => (Ok (mkResponse ms), w).


(** ** Sample worlds *)

Definition sample_clock : DateTime :=
  mkDateTime 2026 11 4 9 5 7 123456 None.

(** A world whose entropy words are all [r], at 2026-11-04 09:05:07, with
    a standard output that encodes every text (UTF-8). *)
Definition sample_world (r : N) : World :=
  mkWorld (fun _ => r) 0 0 (fun _ => sample_clock) ∅ "" (fun _ => None).

(** A world with only the token set in the environment. *)
Definition token_only_world : World :=
  mkWorld (fun _ => 4%N) 0 0 (fun _ => sample_clock)
          (<["GITHUB_TOKEN" := "ghp_example"]> ∅) "" (fun _ => None).

(** The agent the script builds when none of the three variables is set. *)
Definition unconfigured_agent : ChatAgent :=
  mkAgent (mkClient None None None) agent_instructions agent_tools.

(** A two-message conversation ending in an assistant message of two
    blocks. *)
Definition sample_messages : list Message :=
  [ mkMessage "user" [mkContent "Plan me a day trip."];
    mkMessage "assistant" [mkContent "Go to Paris."; mkContent "Bye."] ].

(** ** Further stand-ins *)

(** The sample clock, one microsecond before the next second. *)
Definition sample_clock_late : DateTime :=
  mkDateTime 2026 11 4 9 5 7 999999 None.

Definition late_world (r : N) : World :=
  mkWorld (fun _ => r) 0 0 (fun _ => sample_clock_late) ∅ ""
          (fun _ => None).

(** What a client constructor raises on a missing key. *)
Definition missing_key_error : Exn :=
  PyExn "ServiceInitializationError" "API key is required".

(** Collaborators whose client constructor refuses a client without a
    key. *)
Definition strict_client_collaborators
           (run : ChatAgent -> string -> World -> Result Response * World)
  : Collaborators :=
  mkCollaborators (fun _ _ w => (Ok tt, w)) (fun w => (Ok true, w))
                  (fun cl w => match api_key cl with
                               | Some _ => (Ok tt, w)
                               | None => (Raised missing_key_error, w)
                               end)
                  (fun _ w => (Ok tt, w)) run.

(** Collaborators whose observability set-up raises. *)
Definition no_telemetry_collaborators : Collaborators :=
  mkCollaborators
    (fun _ _ w => (Raised (PyExn "RuntimeError" "no exporter"), w))
    (fun w => (Ok true, w)) (fun _ w => (Ok tt, w)) (fun _ w => (Ok tt, w))
    (canned_run sample_messages).





(** * Properties *)

(** ** The random source *)

Lemma unit_fraction_nonneg (r : N) : (0 <= unit_fraction r)%Q.
Proof.
  unfold unit_fraction, Qle. simpl Qnum. simpl Qden.
  rewrite Z.mul_0_l, Z.mul_1_r. apply N2Z.is_nonneg.
Qed.

Lemma unit_fraction_lt_1 (r : N) : (unit_fraction r < 1)%Q.
Proof.
  unfold unit_fraction, Qlt. simpl Qnum. simpl Qden.
  rewrite Z.mul_1_r, Z.mul_1_l.
  assert (Hlt : (r mod 2 ^ 53 < 2 ^ 53)%N)
    by (apply N.mod_upper_bound; discriminate).
  apply N2Z.inj_lt in Hlt. exact Hlt.
Qed.

Lemma uniform_value_ge (a b : Q) (r : N) :
  (a <= b)%Q -> (a <= uniform_value a b r)%Q.
Proof.
  intros Hab. unfold uniform_value.
  rewrite <- (Qplus_0_r a) at 1.
  apply Qplus_le_r. apply Qmult_le_0_compat.
  - unfold Qminus. rewrite <- (Qplus_opp_r a).
    apply Qplus_le_l. exact Hab.
  - apply unit_fraction_nonneg.
Qed.

Lemma uniform_value_lt (a b : Q) (r : N) :
  (a < b)%Q -> (uniform_value a b r < b)%Q.
Proof.
  intros Hab. unfold uniform_value.
  assert (Hpos : (0 < b - a)%Q).
  { unfold Qminus. rewrite <- (Qplus_opp_r a).
    apply Qplus_lt_l. exact Hab. }
  assert (Hm : ((b - a) * unit_fraction r < (b - a) * 1)%Q).
  { apply Qmult_lt_l; [exact Hpos | apply unit_fraction_lt_1]. }
  assert (Hs : (a + (b - a) * unit_fraction r < a + (b - a) * 1)%Q).
  { apply Qplus_lt_r. exact Hm. }
  eapply Qlt_le_trans; [exact Hs |].
  apply Qle_lteq. right. ring.
Qed.

Lemma sleep_accepts_uniform (a b : Q) (r : N) :
  (0 <= a)%Q -> (a <= b)%Q -> Qle_bool 0 (uniform_value a b r) = true.
Proof.
  intros Ha Hab. apply Qle_bool_iff.
  eapply Qle_trans; [exact Ha | apply uniform_value_ge; exact Hab].
Qed.

Lemma randint_value_range (a b : Z) (r : N) :
  a <= b -> a <= randint_value a b r <= b.
Proof.
  intros Hab. unfold randint_value.
  pose proof (Z.mod_pos_bound (Z.of_N r) (b - a + 1)). lia.
Qed.

(** Each value of [a .. b] is drawn from exactly one of the [b - a + 1]
    words [0 .. b - a]. *)
Lemma randint_value_word (a b : Z) (k : N) :
  Z.of_N k <= b - a -> randint_value a b k = a + Z.of_N k.
Proof.
  intros Hk. unfold randint_value.
  rewrite Z.mod_small; lia.
Qed.

(** ** Runs of the tool functions *)

(** The run of [get_weather], call by call. *)
Lemma run_get_weather (location : string) (w : World) :
  let d := uniform_value (3 # 10) (37 # 10) (next_word w) in
  run_tool (get_weather location) w =
  mkRun (if weather_draw w >? 7
         then Raised (Exception weather_unavailable)
         else Ok (weather_report location))
        (advance (add_elapsed d (advance w)))
        [ existT _ (Uniform (3 # 10) (37 # 10));
          existT _ (Sleep d);
          existT _ (Randint 1 10) ].
Proof.
  intros d. subst d.
  unfold run_tool, get_weather, uniform, time_sleep, randint, call.
  cbn [bind exec tool_handler].
  rewrite (sleep_accepts_uniform (3 # 10) (37 # 10)) by discriminate.
  change (10 <? 1) with false. cbv iota.
  unfold weather_draw.
  match goal with |- context [randint_value 1 10 ?r] =>
    change r with (entropy w (S (cursor w)))
  end.
  destruct (randint_value 1 10 (entropy w (S (cursor w))) >? 7);
    reflexivity.
Qed.

(** ** get_weather *)

(** C1: [get_weather] draws one integer from 1..10 and raises exactly when
    that integer is above 7; the exception is [Exception] with the fixed
    message, and otherwise the call returns.  Of the ten equally likely
    draws, three raise: probability 3/10. *)
Theorem get_weather_raises_iff_draw_above_7 (location : string) (w : World) :
  let run := run_tool (get_weather location) w in
  let d := weather_draw w in
  let before_draw :=
    add_elapsed (uniform_value (3 # 10) (37 # 10) (next_word w)) (advance w) in
  tool_handler Z (Randint 1 10) before_draw = (Ok d, final run)
  /\ 1 <= d <= 10
  /\ (is_raised (result run) = true <-> 7 < d)
  /\ (7 < d
      <-> result run
          = Raised (PyExn "Exception"
                          "Weather service is currently unavailable. Please try again later."))
  /\ (d <= 7 -> exists s, result run = Ok s)
  /\ map (fun r => weather_draw (reseed w (S (cursor w)) r)) (words 10)
     = [1; 2; 3; 4; 5; 6; 7; 8; 9; 10]
  /\ probability
       (fun r => is_raised (result (run_tool (get_weather location)
                                             (reseed w (S (cursor w)) r))))
       (words 10) = 3 # 10.
Proof.
  intros run d before_draw. subst run.
  pose proof (run_get_weather location w) as Hrun. cbv zeta in Hrun.
  rewrite Hrun. cbn [result final].
  assert (Hd : 1 <= d <= 10) by (apply randint_value_range; lia).
  assert (Hword : forall r, weather_draw (reseed w (S (cursor w)) r)
                            = randint_value 1 10 r).
  { intros r. unfold weather_draw, reseed. cbn [entropy cursor].
    now rewrite Nat.eqb_refl. }
  split; [reflexivity |].
  split; [exact Hd |].
  fold d.
  split; [destruct (Z.gtb_spec d 7); cbn; split; intros; (lia || easy) |].
  split; [destruct (Z.gtb_spec d 7); split; intros; (lia || easy) |].
  split; [intros Hle; destruct (Z.gtb_spec d 7); [lia | eauto] |].
  split.
  - rewrite (map_ext _ (randint_value 1 10) Hword). reflexivity.
  - unfold probability.
    rewrite (filter_ext _ (fun r => randint_value 1 10 r >? 7)).
    + reflexivity.
    + intros r. pose proof (run_get_weather location
                              (reseed w (S (cursor w)) r)) as Hr.
      cbv zeta in Hr. rewrite Hr. cbn [result]. rewrite Hword.
      destruct (randint_value 1 10 r >? 7); reflexivity.
Qed.

Lemma get_weather_raises_iff_draw_above_7_witness :
  weather_draw (sample_world 7) = 8
  /\ result (run_tool (get_weather "Paris") (sample_world 7))
     = Raised (PyExn "Exception"
                     "Weather service is currently unavailable. Please try again later.")
  /\ weather_draw (sample_world 4) = 5
  /\ exists s, result (run_tool (get_weather "Paris") (sample_world 4)) = Ok s.
Proof.
  pose proof (get_weather_raises_iff_draw_above_7 "Paris" (sample_world 7))
    as H7. cbv zeta in H7.
  destruct H7 as (_ & _ & _ & Hraise & _).
  pose proof (get_weather_raises_iff_draw_above_7 "Paris" (sample_world 4))
    as H4. cbv zeta in H4.
  destruct H4 as (_ & _ & _ & _ & Hreturn & _).
  split; [reflexivity |].
  split; [apply Hraise; reflexivity |].
  split; [reflexivity |].
  apply Hreturn. discriminate.
Defined.

(** C3: when [get_weather location] returns, the value is the fixed text
    around [location], which is embedded as it is. *)
Theorem get_weather_returns_report (location : string) (w : World)
        (s : string) :
  result (run_tool (get_weather location) w) = Ok s ->
  s = "The weather in " +:+ location +:+ " is cloudy with a high of 15°C.".
Proof.
  pose proof (run_get_weather location w) as Hrun. cbv zeta in Hrun.
  rewrite Hrun. cbn [result].
  destruct (weather_draw w >? 7); [discriminate |].
  intros H. injection H as <-. reflexivity.
Qed.

Lemma get_weather_returns_report_witness :
  result (run_tool (get_weather "Paris") (sample_world 4))
    = Ok "The weather in Paris is cloudy with a high of 15°C."
  /\ "The weather in Paris is cloudy with a high of 15°C."
     = "The weather in " +:+ "Paris" +:+ " is cloudy with a high of 15°C.".
Proof.
  split; [reflexivity |].
  apply (get_weather_returns_report "Paris" (sample_world 4)).
  reflexivity.
Defined.

(** C10: whether [get_weather] raises, how long it sleeps and what it
    leaves of the random source do not depend on [location]: on the same
    world, two calls make the same calls, sleep the same time, end in the
    same world, and both raise (the same exception) or both return. *)
Theorem get_weather_outcome_independent_of_location
        (a b : string) (w : World) :
  let ra := run_tool (get_weather a) w in
  let rb := run_tool (get_weather b) w in
  calls ra = calls rb
  /\ final ra = final rb
  /\ elapsed (final ra) = elapsed (final rb)
  /\ is_raised (result ra) = is_raised (result rb)
  /\ (forall e, result ra = Raised e <-> result rb = Raised e)
  /\ ((exists s, result ra = Ok s) <-> (exists s, result rb = Ok s)).
Proof.
  intros ra rb. subst ra rb.
  pose proof (run_get_weather a w) as Ha. cbv zeta in Ha.
  pose proof (run_get_weather b w) as Hb. cbv zeta in Hb.
  rewrite Ha, Hb. cbn [result final calls].
  destruct (weather_draw w >? 7); repeat split; try reflexivity;
    try (intros H; exact H); try discriminate;
    intros _; eauto.
Qed.

Lemma get_weather_outcome_independent_of_location_witness :
  result (run_tool (get_weather "Paris") (sample_world 7))
  = Raised (Exception weather_unavailable)
  /\ result (run_tool (get_weather "Tokyo") (sample_world 7))
     = Raised (Exception weather_unavailable)
  /\ elapsed (final (run_tool (get_weather "Paris") (sample_world 7)))
     = elapsed (final (run_tool (get_weather "Tokyo") (sample_world 7))).
Proof.
  pose proof (get_weather_outcome_independent_of_location
                "Paris" "Tokyo" (sample_world 7)) as H. cbv zeta in H.
  destruct H as (_ & _ & Hsleep & _ & Hraise & _).
  split; [reflexivity |].
  split; [apply Hraise; reflexivity | exact Hsleep].
Defined.

(** ** get_random_destination *)

Lemma exec_lift {E A} (h : forall X, E X -> World -> Result X * World)
      (r : Result A) (w : World) :
  exec h (lift r) w = mkRun r w [].
Proof. destruct r; reflexivity. Qed.

Lemma getitem_in_range {A} (l : list A) (i : Z) :
  0 <= i < Z.of_nat (length l) ->
  exists x, getitem l i = Ok x /\ nth_error l (Z.to_nat i) = Some x.
Proof.
  intros Hi. unfold getitem.
  destruct (Z.ltb_spec i 0) as [Hneg | _]; [lia |].
  destruct (Z.ltb_spec i 0) as [Hneg | _]; [lia |].
  destruct (Z.leb_spec (Z.of_nat (length l)) i) as [Hbig | _]; [lia |].
  cbn [orb].
  destruct (nth_error l (Z.to_nat i)) as [x |] eqn:Hnth.
  - exists x. split; reflexivity.
  - apply nth_error_None in Hnth. lia.
Qed.

(** The run of [get_random_destination], call by call. *)
Lemma run_get_random_destination (w : World) :
  let d := uniform_value 0 (99 # 100) (next_word w) in
  run_tool get_random_destination w =
  mkRun (getitem destinations (destination_draw w))
        (advance (add_elapsed d (advance w)))
        [ existT _ (Uniform 0 (99 # 100));
          existT _ (Sleep d);
          existT _ (Randint 0 11) ].
Proof.
  intros d. subst d.
  unfold run_tool, get_random_destination, uniform, time_sleep, randint, call.
  cbn [bind exec tool_handler].
  rewrite (sleep_accepts_uniform 0 (99 # 100)) by discriminate.
  change (Z.of_nat (length destinations) - 1) with 11.
  change (11 <? 0) with false. cbv iota.
  rewrite exec_lift. reflexivity.
Qed.

(** C2: [get_random_destination] never raises: the index it draws is
    within the list, and the value returned is the entry at that index.
    The list has 12 distinct entries, the 12 equally likely draws select
    them one each, in order, so every entry has probability 1/12. *)
Theorem get_random_destination_uniform_in_list (w : World) :
  let run := run_tool get_random_destination w in
  let i := destination_draw w in
  length destinations = 12%nat
  /\ NoDup destinations
  /\ 0 <= i < Z.of_nat (length destinations)
  /\ (exists s, result run = Ok s /\ In s destinations
                /\ nth_error destinations (Z.to_nat i) = Some s)
  /\ is_raised (result run) = false
  /\ map (fun r => result (run_tool get_random_destination
                                    (reseed w (S (cursor w)) r)))
         (words 12) = map Ok destinations
  /\ (forall s, In s destinations ->
        probability
          (fun r => bool_decide
                      (result (run_tool get_random_destination
                                        (reseed w (S (cursor w)) r)) = Ok s))
          (words 12) = 1 # 12).
Proof.
  intros run i. subst run.
  pose proof (run_get_random_destination w) as Hrun. cbv zeta in Hrun.
  rewrite Hrun. cbn [result]. fold i.
  assert (Hi : 0 <= i < Z.of_nat (length destinations)).
  { unfold i, destination_draw.
    pose proof (randint_value_range 0 (Z.of_nat (length destinations) - 1)
                  (entropy w (S (cursor w)))) as H.
    cbn [length destinations] in *. lia. }
  assert (Hword : forall r,
             result (run_tool get_random_destination
                              (reseed w (S (cursor w)) r))
             = getitem destinations (randint_value 0 11 r)).
  { intros r.
    pose proof (run_get_random_destination (reseed w (S (cursor w)) r)) as Hr.
    cbv zeta in Hr. rewrite Hr. cbn [result].
    unfold destination_draw, reseed. cbn [entropy cursor].
    now rewrite Nat.eqb_refl. }
  split; [reflexivity |].
  split; [apply (bool_decide_unpack _); vm_compute; reflexivity |].
  split; [exact Hi |].
  destruct (getitem_in_range destinations i Hi) as (s & Hget & Hnth).
  split; [exists s; split; [exact Hget | split;
            [eapply nth_error_In; exact Hnth | exact Hnth]] |].
  split; [rewrite Hget; reflexivity |].
  split.
  - rewrite (map_ext _ _ Hword). reflexivity.
  - intros s' Hin. unfold probability.
    rewrite (filter_ext _
               (fun r => bool_decide
                           (getitem destinations (randint_value 0 11 r)
                            = Ok s'))).
    + cbn [In destinations] in Hin.
      repeat (destruct Hin as [<- | Hin]; [vm_compute; reflexivity |]).
      destruct Hin.
    + intros r. rewrite Hword. reflexivity.
Qed.

Lemma get_random_destination_uniform_in_list_witness :
  result (run_tool get_random_destination (sample_world 5))
  = Ok "Tokyo, Japan"
  /\ probability
       (fun r => bool_decide
                   (result (run_tool get_random_destination
                                     (reseed (sample_world 5) 1 r))
                    = Ok "Tokyo, Japan"))
       (words 12) = 1 # 12.
Proof.
  pose proof (get_random_destination_uniform_in_list (sample_world 5)) as H.
  cbv zeta in H. destruct H as (_ & _ & _ & _ & _ & _ & Hprob).
  split; [reflexivity |].
  apply (Hprob "Tokyo, Japan").
  do 5 right. left. reflexivity.
Defined.

(** ** get_datetime *)

Lemma forallb_below (P : Z -> bool) (k : Z) :
  forallb P (map Z.of_nat (seq 0 (Z.to_nat k))) = true ->
  forall n, 0 <= n < k -> P n = true.
Proof.
  intros Hall n Hn. rewrite forallb_forall in Hall. apply Hall.
  apply in_map_iff. exists (Z.to_nat n). split; [lia |].
  apply in_seq. lia.
Qed.

Lemma fmt_d_2_digits (n : Z) : 0 <= n <= 99 -> two_digits n = true.
Proof.
  intros Hn. apply (forallb_below two_digits 100); [| lia].
  vm_compute. reflexivity.
Qed.

(** The 10000 cases are checked as 100 hundreds of 100 units. *)
Lemma fmt_d_4_digits (n : Z) : 0 <= n <= 9999 -> four_digits n = true.
Proof.
  intros Hn.
  assert (Hsplit : n = 100 * (n / 100) + n mod 100)
    by (apply Z.div_mod; lia).
  assert (Hhi : 0 <= n / 100 < 100)
    by (split; [apply Z.div_pos | apply Z.div_lt_upper_bound]; lia).
  assert (Hlo : 0 <= n mod 100 < 100) by (apply Z.mod_pos_bound; lia).
  rewrite Hsplit.
  generalize (n mod 100) Hlo. generalize (n / 100) Hhi. clear.
  intros hi Hhi.
  apply (forallb_below
           (fun lo => four_digits (100 * hi + lo)) 100).
  revert hi Hhi.
  apply (forallb_below
           (fun hi => forallb (fun lo => four_digits (100 * hi + lo))
                              (map Z.of_nat (seq 0 (Z.to_nat 100)))) 100).
  vm_compute. reflexivity.
Qed.

(** The run of [get_datetime], call by call: the clock is read after the
    sleep. *)
Lemma run_get_datetime (w : World) :
  let d := uniform_value (1 # 10) 5 (next_word w) in
  run_tool get_datetime w =
  mkRun (Ok (isoformat " " TsSeconds
                       (naive (wallclock w (elapsed w + d)%Q))))
        (add_elapsed d (advance w))
        [ existT _ (Uniform (1 # 10) 5);
          existT _ (Sleep d);
          existT _ DatetimeNow ].
Proof.
  intros d. subst d.
  unfold run_tool, get_datetime, uniform, time_sleep, datetime_now, call.
  cbn [bind exec tool_handler].
  rewrite (sleep_accepts_uniform (1 # 10) 5) by discriminate.
  reflexivity.
Qed.

Ltac split_andb H :=
  repeat match type of H with
         | (_ && _) = true =>
             let H1 := fresh H in
             apply andb_true_iff in H; destruct H as [H H1]
         end.

Ltac two_digit_field n :=
  let H := fresh "Hd" in
  pose proof (fmt_d_2_digits n ltac:(lia)) as H; unfold two_digits in H;
  destruct (fmt_d 2 n) as [| ? [| ? [| ? ?]]]; try discriminate H;
  split_andb H.

(** C4: [get_datetime] returns the local time read after its sleep, written
    as [YYYY-MM-DD HH:MM:SS]: 19 characters, digits except for the two
    dashes, the single space and the two colons, each field zero-padded to
    its width and reading back as the clock's value; nothing follows the
    seconds, so no fraction and no offset. *)
Theorem get_datetime_timestamp_format (w : World) :
  let now := wallclock w (elapsed w
                          + uniform_value (1 # 10) 5 (next_word w))%Q in
  valid_datetime now ->
  exists s,
    result (run_tool get_datetime w) = Ok s
    /\ String.length s = 19%nat
    /\ matches timestamp_pattern s = true
    /\ field s 0 4 = year now /\ field s 5 2 = month now
    /\ field s 8 2 = day now /\ field s 11 2 = hour now
    /\ field s 14 2 = minute now /\ field s 17 2 = second now.
Proof.
  intros now (Hy & Hmo & Hd & Hh & Hmi & Hs & _).
  pose proof (run_get_datetime w) as Hrun. cbv zeta in Hrun.
  rewrite Hrun. cbn [result]. fold now.
  eexists. split; [reflexivity |].
  unfold isoformat, naive, format_time, format_offset.
  cbn [year month day hour minute second microsecond tzinfo].
  pose proof (fmt_d_4_digits (year now) ltac:(lia)) as Hyd.
  unfold four_digits in Hyd.
  destruct (fmt_d 4 (year now)) as [| ? [| ? [| ? [| ? [| ? ?]]]]];
    try discriminate Hyd.
  split_andb Hyd.
  two_digit_field (month now).
  two_digit_field (day now).
  two_digit_field (hour now).
  two_digit_field (minute now).
  two_digit_field (second now).
  cbv [append].
  cbn [String.length matches timestamp_pattern field substring number
       Ascii.eqb Bool.eqb andb].
  repeat match goal with
         | H : is_digit _ = true |- _ => rewrite H; clear H
         end.
  cbn [andb].
  repeat match goal with
         | H : (_ =? _) = true |- _ => apply Z.eqb_eq in H
         end.
  repeat split; lia.
Qed.

Lemma get_datetime_timestamp_format_witness :
  valid_datetime sample_clock
  /\ result (run_tool get_datetime (sample_world 4))
     = Ok "2026-11-04 09:05:07"
  /\ exists s,
       result (run_tool get_datetime (sample_world 4)) = Ok s
       /\ String.length s = 19%nat
       /\ matches timestamp_pattern s = true
       /\ field s 0 4 = 2026 /\ field s 5 2 = 11
       /\ field s 8 2 = 4 /\ field s 11 2 = 9
       /\ field s 14 2 = 5 /\ field s 17 2 = 7.
Proof.
  assert (Hv : valid_datetime sample_clock)
    by (unfold valid_datetime, sample_clock; cbn; lia).
  split; [exact Hv |].
  split; [reflexivity |].
  exact (get_datetime_timestamp_format (sample_world 4) Hv).
Defined.

(** ** Runs of the driver *)


(** A run of [p] followed by [f]: the run of [p], then, if it returned,
    the run of [f] on its value. *)
Lemma exec_bind {E A B} (h : forall X, E X -> World -> Result X * World)
      (p : Prog E A) (f : A -> Prog E B) (w : World) :
  exec h (bind p f) w =
  match result (exec h p w) with
  | Ok a =>
      let r := exec h (f a) (final (exec h p w)) in
      mkRun (result r) (final r) (calls (exec h p w) ++ calls r)
  | Raised e => mkRun (Raised e) (final (exec h p w)) (calls (exec h p w))
  end.
Proof.
  revert w. induction p as [a | e | X ev k IH]; intros w; cbn [bind exec].
  - cbn. destruct (exec h (f a) w); reflexivity.
  - reflexivity.
  - destruct (h X ev w) as [[x | e] w1]; cbn [logged result final calls].
    + rewrite IH. destruct (result (exec h (k x) w1)); reflexivity.
    + reflexivity.
Qed.

Lemma getitem_nil {A} (i : Z) : getitem (@nil A) i = Raised IndexError.
Proof.
  unfold getitem.
  match goal with |- (if ?b then _ else _) = _ => destruct b end;
    [reflexivity |].
  match goal with |- context [nth_error [] ?n] => destruct n end;
    reflexivity.
Qed.


Lemma getitem_last {A} (l : list A) (x : A) : getitem (l ++ [x]) (-1) = Ok x.
Proof.
  unfold getitem. change (-1 <? 0) with true. cbv iota.
  rewrite length_app. cbn [length].
  replace (-1 + Z.of_nat (length l + 1)) with (Z.of_nat (length l)) by lia.
  destruct (Z.ltb_spec (Z.of_nat (length l)) 0) as [Hneg | _]; [lia |].
  destruct (Z.leb_spec (Z.of_nat (length l + 1)) (Z.of_nat (length l)))
    as [Hbig | _]; [lia |].
  cbn [orb]. rewrite Nat2Z.id.
  rewrite nth_error_app2 by lia. rewrite Nat.sub_diag. reflexivity.
Qed.

(** The run of [main], call by call. *)
Lemma run_main (c : Collaborators) (agent : ChatAgent) (w : World) :
  run_driver c (main agent) w =
  match agent_run_impl c agent userPrompt w with
  | (Raised e, w') =>
      mkRun (Raised e) w' [existT _ (AgentRun agent userPrompt)]
  | (Ok response, w') =>
      match getitem (messages response) (-1) with
      | Raised e => mkRun (Raised e) w' [existT _ (AgentRun agent userPrompt)]
      | Ok last_message =>
          match getitem (contents last_message) 0 with
          | Raised e =>
              mkRun (Raised e) w' [existT _ (AgentRun agent userPrompt)]
          | Ok first_block =>
              let c1 := existT _ (AgentRun agent userPrompt) in
              let c2 := existT _ (Print travel_plan_header) in
              let c3 := existT _ (Print (text first_block)) in
              match stdout_rejects w' travel_plan_header with
              | Some msg =>
                  mkRun (Raised (PyExn "UnicodeEncodeError" msg)) w' [c1; c2]
              | None =>
                  let w1 := write_stdout (travel_plan_header +:+ newline) w' in
                  match stdout_rejects w' (text first_block) with
                  | Some msg =>
                      mkRun (Raised (PyExn "UnicodeEncodeError" msg)) w1
                            [c1; c2; c3]
                  | None =>
                      mkRun (Ok tt)
                            (write_stdout (text first_block +:+ newline) w1)
                            [c1; c2; c3]
                  end
              end
          end
      end
  end.
Proof.
  unfold run_driver, main, print, call. cbn [bind exec driver_handler].
  destruct (agent_run_impl c agent userPrompt w) as [[response | e] w'];
    [| reflexivity].
  destruct (getitem (messages response) (-1)) as [last_message | e];
    [| reflexivity].
  cbn [lift bind exec].
  destruct (getitem (contents last_message) 0) as [first_block | e];
    [| reflexivity].
  cbn [lift bind exec driver_handler].
  destruct (stdout_rejects w' travel_plan_header) as [msg |];
    [reflexivity |].
  cbn [logged result final calls bind exec driver_handler stdout_rejects
       write_stdout].
  destruct (stdout_rejects w' (text first_block)) as [msg |]; reflexivity.
Qed.

(** The run of the module-level statements, call by call. *)
Lemma run_module_setup (c : Collaborators) (w : World) :
  run_driver c module_setup w =
  let c1 := existT _ (SetupObservability true ["otlp"]) in
  let c2 := existT _ LoadDotenv in
  match setup_observability_impl c true ["otlp"] w with
  | (Raised e, w1) => mkRun (Raised e) w1 [c1]
  | (Ok _, w1) =>
      match load_dotenv_impl c w1 with
      | (Raised e, w2) => mkRun (Raised e) w2 [c1; c2]
      | (Ok _, w2) =>
          let client := mkClient (environ w2 !! "GITHUB_ENDPOINT")
                                 (environ w2 !! "GITHUB_TOKEN")
                                 (environ w2 !! "GITHUB_MODEL_ID") in
          let agent := mkAgent client agent_instructions agent_tools in
          let gets := [ existT _ (EnvironGet "GITHUB_ENDPOINT");
                        existT _ (EnvironGet "GITHUB_TOKEN");
                        existT _ (EnvironGet "GITHUB_MODEL_ID") ] in
          let c6 := existT _ (NewOpenAIChatClient client) in
          let c7 := existT _ (NewChatAgent agent) in
          match client_init_impl c client w2 with
          | (Raised e, w3) => mkRun (Raised e) w3 (c1 :: c2 :: gets ++ [c6])
          | (Ok _, w3) =>
              match agent_init_impl c agent w3 with
              | (Raised e, w4) =>
                  mkRun (Raised e) w4 (c1 :: c2 :: gets ++ [c6; c7])
              | (Ok _, w4) =>
                  mkRun (Ok agent) w4 (c1 :: c2 :: gets ++ [c6; c7])
              end
          end
      end
  end.
Proof.
  unfold run_driver, module_setup, environ_get, call.
  cbn [bind exec driver_handler].
  destruct (setup_observability_impl c true ["otlp"] w) as [[u1 | e] w1];
    [| reflexivity].
  destruct (load_dotenv_impl c w1) as [[u2 | e] w2]; [| reflexivity].
  cbn [logged result final calls].
  destruct (client_init_impl c _ w2) as [[u3 | e] w3]; [| reflexivity].
  destruct (agent_init_impl c _ w3) as [[u4 | e] w4]; reflexivity.
Qed.

(** The run of the script: the module-level statements, then [main]. *)
Lemma run_script (c : Collaborators) (w : World) :
  let setup := run_driver c module_setup w in
  run_driver c script w =
  match result setup with
  | Ok agent =>
      let r := run_driver c (main agent) (final setup) in
      mkRun (result r) (final r) (calls setup ++ calls r)
  | Raised e => mkRun (Raised e) (final setup) (calls setup)
  end.
Proof. unfold run_driver, script. apply exec_bind. Qed.

(** What the module-level statements call: no [print], no [agent.run], and
    the two constructors at most once, with the arguments the source
    gives. *)
Lemma module_setup_calls (c : Collaborators) (w : World) :
  let setup := run_driver c module_setup w in
  print_calls (calls setup) = []
  /\ run_calls (calls setup) = []
  /\ (length (agent_ctor_calls (calls setup)) <= 1)%nat
  /\ (forall a, In a (agent_ctor_calls (calls setup)) ->
        tools a = agent_tools /\ instructions a = agent_instructions)
  /\ (forall agent, result setup = Ok agent ->
        agent_ctor_calls (calls setup) = [agent]
        /\ client_ctor_calls (calls setup) = [chat_client agent]).
Proof.
  cbv zeta. rewrite run_module_setup. cbv zeta.
  destruct (setup_observability_impl c true ["otlp"] w) as [[u1 | e] w1];
    [| cbn; repeat split; (lia || easy)].
  destruct (load_dotenv_impl c w1) as [[u2 | e] w2];
    [| cbn; repeat split; (lia || easy)].
  destruct (client_init_impl c _ w2) as [[u3 | e] w3];
    [| cbn; repeat split; (lia || easy)].
  destruct (agent_init_impl c _ w3) as [[u4 | e] w4]; cbn.
  - repeat split; try lia; try easy.
    + destruct H as [<- | []]. reflexivity.
    + destruct H as [<- | []]. reflexivity.
    + injection H as <-. reflexivity.
    + injection H as <-. reflexivity.
  - repeat split; try lia; try easy.
    + destruct H as [<- | []]. reflexivity.
    + destruct H as [<- | []]. reflexivity.
Qed.

(** ** The driver *)




(** C7: when [agent.run] returns a response with no message, or one whose
    last message has no content block, the driver ends with the list
    type's own [IndexError], raised by the unguarded [messages[-1]] or
    [contents[0]], and prints nothing. *)
Theorem driver_fails_on_empty_response
        (c : Collaborators) (w w' : World) (agent : ChatAgent)
        (response : Response) :
  let setup := run_driver c module_setup w in
  let run := run_driver c script w in
  result setup = Ok agent ->
  agent_run_impl c agent userPrompt (final setup) = (Ok response, w') ->
  (messages response = []
   \/ exists ms m, messages response = (ms ++ [m])%list /\ contents m = []) ->
  result run = Raised (PyExn "IndexError" "list index out of range")
  /\ final run = w'
  /\ print_calls (calls run) = []
  /\ exit_status (result run) = 1.
Proof.
  intros setup run Hsetup Hrun Hshape. subst run setup.
  pose proof (run_script c w) as Hscript. cbv zeta in Hscript.
  rewrite Hscript, Hsetup.
  rewrite run_main, Hrun.
  assert (Hnoprint : print_calls (calls (run_driver c module_setup w) ++
                       [existT _ (AgentRun agent userPrompt)])%list = []).
  { unfold print_calls. rewrite omap_app.
    fold (print_calls (calls (run_driver c module_setup w))).
    rewrite (proj1 (module_setup_calls c w)). reflexivity. }
  destruct Hshape as [Hnil | (ms & m & Hms & Hnil)].
  - rewrite Hnil, getitem_nil. cbn [result final calls].
    repeat split; [exact Hnoprint].
  - rewrite Hms, getitem_last, Hnil, getitem_nil. cbn [result final calls].
    repeat split; [exact Hnoprint].
Qed.

Lemma driver_fails_on_empty_response_witness :
  let run := run_driver (stub_collaborators (canned_run [])) script
                        (sample_world 0) in
  result run = Raised (PyExn "IndexError" "list index out of range")
  /\ final run = sample_world 0
  /\ print_calls (calls run) = []
  /\ exit_status (result run) = 1.
Proof.
  exact (driver_fails_on_empty_response
           (stub_collaborators (canned_run [])) (sample_world 0)
           (sample_world 0) unconfigured_agent (mkResponse [])
           eq_refl eq_refl (or_introl eq_refl)).
Defined.

(** What [main] calls: [agent.run] once, with the fixed prompt, and no
    constructor. *)
Lemma main_calls (c : Collaborators) (agent : ChatAgent) (w : World) :
  let r := run_driver c (main agent) w in
  run_calls (calls r) = [(agent, userPrompt)]
  /\ agent_ctor_calls (calls r) = []
  /\ client_ctor_calls (calls r) = [].
Proof.
  cbv zeta. rewrite run_main.
  destruct (agent_run_impl c agent userPrompt w) as [[response | e] w'];
    [| repeat split].
  destruct (getitem (messages response) (-1)) as [last_message | e];
    [| repeat split].
  destruct (getitem (contents last_message) 0) as [first_block | e];
    [| repeat split].
  cbv zeta.
  destruct (stdout_rejects w' travel_plan_header) as [msg |];
    [repeat split |].
  destruct (stdout_rejects w' (text first_block)) as [msg |]; repeat split.
Qed.





(** C6: the agent constructor receives the three tool functions
    [get_random_destination], [get_weather], [get_datetime], in this
    order, and [agent.run] is called with the fixed prompt: in every run at
    most once, and exactly once when the module has set up. *)
Theorem driver_agent_tools_and_single_run (c : Collaborators) (w : World) :
  let setup := run_driver c module_setup w in
  let run := run_driver c script w in
  agent_tools = [ Tool0 "get_random_destination" get_random_destination;
                  Tool1 "get_weather" get_weather;
                  Tool0 "get_datetime" get_datetime ]
  /\ userPrompt = "Plan me a day trip with activities and calculate the current weather at the destination. Mention the current date and time of the plan."
  /\ (forall a, In a (agent_ctor_calls (calls run)) -> tools a = agent_tools)
  /\ (length (agent_ctor_calls (calls run)) <= 1)%nat
  /\ (length (run_calls (calls run)) <= 1)%nat
  /\ (forall a p, In (a, p) (run_calls (calls run)) ->
        p = userPrompt /\ tools a = agent_tools)
  /\ (forall agent, result setup = Ok agent ->
        agent_ctor_calls (calls run) = [agent]
        /\ run_calls (calls run) = [(agent, userPrompt)]).
Proof.
  intros setup run. subst run setup.
  pose proof (run_script c w) as Hscript. cbv zeta in Hscript.
  rewrite Hscript.
  pose proof (module_setup_calls c w) as Hcalls. cbv zeta in Hcalls.
  destruct Hcalls as (_ & Hnorun & Hatmost & Htools & Hok).
  split; [reflexivity |]. split; [reflexivity |].
  destruct (result (run_driver c module_setup w)) as [agent | e].
  - destruct (Hok agent eq_refl) as [Hctor _].
    destruct (main_calls c agent (final (run_driver c module_setup w)))
      as (Hrun & Hnoctor & _).
    cbn [calls]. unfold agent_ctor_calls, run_calls in *.
    rewrite !omap_app, Hrun, Hnoctor, Hnorun, Hctor.
    assert (Ht : tools agent = agent_tools).
    { apply Htools. rewrite Hctor. left. reflexivity. }
    cbn [app length In].
    split; [intros a [<- | []]; exact Ht |].
    split; [lia |]. split; [lia |].
    split; [intros a p [Heq | []]; injection Heq as <- <-; auto |].
    intros agent' Heq. injection Heq as <-. auto.
  - cbn [calls]. rewrite Hnorun. cbn [length In].
    split; [intros a Ha; apply Htools; exact Ha |].
    split; [exact Hatmost |]. split; [lia |].
    split; [intros a p [] |]. intros agent' Heq. discriminate Heq.
Qed.

Lemma driver_agent_tools_and_single_run_witness :
  let run := run_driver (stub_collaborators (canned_run sample_messages))
                        script (sample_world 0) in
  agent_ctor_calls (calls run) = [unconfigured_agent]
  /\ run_calls (calls run) = [(unconfigured_agent, userPrompt)]
  /\ map tool_name (tools unconfigured_agent)
     = ["get_random_destination"; "get_weather"; "get_datetime"].
Proof.
  destruct (driver_agent_tools_and_single_run
              (stub_collaborators (canned_run sample_messages))
              (sample_world 0))
    as (_ & _ & _ & _ & _ & _ & Hok).
  destruct (Hok unconfigured_agent eq_refl) as [Hctor Hrun].
  split; [exact Hctor |]. split; [exact Hrun | reflexivity].
Defined.

(** C9: the three configuration values reach the client constructor as
    [os.environ.get] returned them, [None] for a variable that is not set:
    once observability and dotenv have returned, the next calls of every
    run are the three lookups and the constructor on their results, so the
    driver raises nothing of its own before the client is built; and when
    both constructors accept what they are given, [agent.run] is called on
    an agent holding that client. *)
Theorem driver_passes_environment_unchecked
        (c : Collaborators) (w w1 w2 : World) (loaded : bool) :
  setup_observability_impl c true ["otlp"] w = (Ok tt, w1) ->
  load_dotenv_impl c w1 = (Ok loaded, w2) ->
  let env := environ w2 in
  let run := run_driver c script w in
  let client := mkClient (env !! "GITHUB_ENDPOINT") (env !! "GITHUB_TOKEN")
                         (env !! "GITHUB_MODEL_ID") in
  let agent := mkAgent client agent_instructions agent_tools in
  take 6 (calls run)
  = [ existT _ (SetupObservability true ["otlp"]);
      existT _ LoadDotenv;
      existT _ (EnvironGet "GITHUB_ENDPOINT");
      existT _ (EnvironGet "GITHUB_TOKEN");
      existT _ (EnvironGet "GITHUB_MODEL_ID");
      existT _ (NewOpenAIChatClient client) ]
  /\ client_ctor_calls (calls run) = [client]
  /\ (env !! "GITHUB_ENDPOINT" = None -> base_url client = None)
  /\ (env !! "GITHUB_TOKEN" = None -> api_key client = None)
  /\ (env !! "GITHUB_MODEL_ID" = None -> model_id client = None)
  /\ (forall w3 w4,
        client_init_impl c client w2 = (Ok tt, w3) ->
        agent_init_impl c agent w3 = (Ok tt, w4) ->
        run_calls (calls run) = [(agent, userPrompt)]).
Proof.
  intros Hobs Hdotenv env run client agent. subst run.
  pose proof (run_script c w) as Hscript. cbv zeta in Hscript.
  rewrite Hscript. clear Hscript.
  pose proof (run_module_setup c w) as Hsetup. cbv zeta in Hsetup.
  rewrite Hobs, Hdotenv in Hsetup. fold env in Hsetup.
  fold client in Hsetup. fold agent in Hsetup.
  split; [| split; [| split; [| split; [| split]]]].
  - rewrite Hsetup.
    destruct (client_init_impl c client w2) as [[[] | e] w3];
      [| reflexivity].
    destruct (agent_init_impl c agent w3) as [[[] | e] w4]; reflexivity.
  - rewrite Hsetup.
    destruct (client_init_impl c client w2) as [[[] | e] w3];
      [| reflexivity].
    destruct (agent_init_impl c agent w3) as [[[] | e] w4];
      [| reflexivity].
    cbn [result final calls].
    destruct (main_calls c agent w4) as (_ & _ & Hnone).
    unfold client_ctor_calls in *. rewrite omap_app, Hnone. reflexivity.
  - intros H. exact H.
  - intros H. exact H.
  - intros H. exact H.
  - intros w3 w4 Hclient Hagent.
    rewrite Hsetup, Hclient, Hagent. cbn [result final calls].
    destruct (main_calls c agent w4) as (Hrun & _ & _).
    unfold run_calls in *. rewrite omap_app, Hrun. reflexivity.
Qed.

Lemma driver_passes_environment_unchecked_witness :
  let run := run_driver (stub_collaborators (canned_run sample_messages))
                        script token_only_world in
  environ token_only_world !! "GITHUB_ENDPOINT" = None
  /\ environ token_only_world !! "GITHUB_MODEL_ID" = None
  /\ client_ctor_calls (calls run)
     = [mkClient None (Some "ghp_example") None]
  /\ result run = Ok tt.
Proof.
  destruct (driver_passes_environment_unchecked
              (stub_collaborators (canned_run sample_messages))
              token_only_world token_only_world token_only_world true
              eq_refl eq_refl) as (_ & Hctor & _).
  split; [reflexivity |]. split; [reflexivity |].
  split; [exact Hctor | reflexivity].
Defined.

(** * Further properties *)

(** ** Latency of the tools *)

Lemma uniform_value_le (a b : Q) (r : N) :
  (a <= b)%Q -> (uniform_value a b r <= b)%Q.
Proof.
  intros Hab. unfold uniform_value.
  assert (Hnn : (0 <= b - a)%Q).
  { unfold Qminus. rewrite <- (Qplus_opp_r a).
    apply Qplus_le_l. exact Hab. }
  assert (Hm : ((b - a) * unit_fraction r <= (b - a) * 1)%Q).
  { rewrite (Qmult_comm (b - a) (unit_fraction r)).
    rewrite (Qmult_comm (b - a) 1).
    apply Qmult_le_compat_r; [| exact Hnn].
    apply Qlt_le_weak. apply unit_fraction_lt_1. }
  assert (Hs : (a + (b - a) * unit_fraction r <= a + (b - a) * 1)%Q).
  { apply Qplus_le_r. exact Hm. }
  eapply Qle_trans; [exact Hs |].
  apply Qle_lteq. right. ring.
Qed.

(** X1: each tool sleeps exactly once, right after the call to [uniform],
    for the very duration that call returned, and that is the time the
    tool takes: between 0 and 0.99 seconds for [get_random_destination],
    0.3 and 3.7 for [get_weather] (also when it then raises), 0.1 and 5
    for [get_datetime]. *)
Theorem tools_sleep_within_bounds (location : string) (w : World) :
  (exists d,
      tool_handler Q (Uniform 0 (99 # 100)) w = (Ok d, advance w)
      /\ (0 <= d)%Q /\ (d <= 99 # 100)%Q
      /\ calls (run_tool get_random_destination w)
         = [ existT _ (Uniform 0 (99 # 100)); existT _ (Sleep d);
             existT _ (Randint 0 11) ]
      /\ elapsed (final (run_tool get_random_destination w))
         = (elapsed w + d)%Q)
  /\ (exists d,
        tool_handler Q (Uniform (3 # 10) (37 # 10)) w = (Ok d, advance w)
        /\ (3 # 10 <= d)%Q /\ (d <= 37 # 10)%Q
        /\ calls (run_tool (get_weather location) w)
           = [ existT _ (Uniform (3 # 10) (37 # 10)); existT _ (Sleep d);
               existT _ (Randint 1 10) ]
        /\ elapsed (final (run_tool (get_weather location) w))
           = (elapsed w + d)%Q)
  /\ (exists d,
        tool_handler Q (Uniform (1 # 10) 5) w = (Ok d, advance w)
        /\ (1 # 10 <= d)%Q /\ (d <= 5)%Q
        /\ calls (run_tool get_datetime w)
           = [ existT _ (Uniform (1 # 10) 5); existT _ (Sleep d);
               existT _ DatetimeNow ]
        /\ elapsed (final (run_tool get_datetime w))
           = (elapsed w + d)%Q).
Proof.
  split; [| split].
  - pose proof (run_get_random_destination w) as Hrun. cbv zeta in Hrun.
    rewrite Hrun. eexists. split; [reflexivity |].
    split; [apply (uniform_value_ge 0 (99 # 100)); discriminate |].
    split; [apply (uniform_value_le 0 (99 # 100)); discriminate |].
    split; reflexivity.
  - pose proof (run_get_weather location w) as Hrun. cbv zeta in Hrun.
    rewrite Hrun. eexists. split; [reflexivity |].
    split; [apply (uniform_value_ge (3 # 10) (37 # 10)); discriminate |].
    split; [apply (uniform_value_le (3 # 10) (37 # 10)); discriminate |].
    split; reflexivity.
  - pose proof (run_get_datetime w) as Hrun. cbv zeta in Hrun.
    rewrite Hrun. eexists. split; [reflexivity |].
    split; [apply (uniform_value_ge (1 # 10) 5); discriminate |].
    split; [apply (uniform_value_le (1 # 10) 5); discriminate |].
    split; reflexivity.
Qed.

(** ** get_datetime drops the microseconds *)

(** X2: [get_datetime] always returns, and what it returns depends on the
    clock only down to the second: two clocks that agree on the date and on
    hour, minute and second give the same text, whatever their
    microseconds, so the time is cut to the second, not rounded. *)
Theorem get_datetime_truncates_to_seconds (w v : World) :
  let tw := wallclock w (elapsed w
                         + uniform_value (1 # 10) 5 (next_word w))%Q in
  let tv := wallclock v (elapsed v
                         + uniform_value (1 # 10) 5 (next_word v))%Q in
  year tw = year tv -> month tw = month tv -> day tw = day tv ->
  hour tw = hour tv -> minute tw = minute tv -> second tw = second tv ->
  is_raised (result (run_tool get_datetime w)) = false
  /\ result (run_tool get_datetime w) = result (run_tool get_datetime v).
Proof.
  intros tw tv Hy Hmo Hd Hh Hmi Hs.
  pose proof (run_get_datetime w) as Hw. cbv zeta in Hw.
  pose proof (run_get_datetime v) as Hv. cbv zeta in Hv.
  rewrite Hw, Hv. cbn [result is_raised]. fold tw. fold tv.
  split; [reflexivity |].
  unfold isoformat, naive, format_time.
  cbn [year month day hour minute second microsecond tzinfo].
  rewrite Hy, Hmo, Hd, Hh, Hmi, Hs. reflexivity.
Qed.

Lemma get_datetime_truncates_to_seconds_witness :
  microsecond sample_clock = 123456
  /\ microsecond sample_clock_late = 999999
  /\ result (run_tool get_datetime (late_world 9))
     = Ok "2026-11-04 09:05:07"
  /\ result (run_tool get_datetime (sample_world 4))
     = result (run_tool get_datetime (late_world 9)).
Proof.
  split; [reflexivity |]. split; [reflexivity |].
  split; [reflexivity |].
  exact (proj2 (get_datetime_truncates_to_seconds
                  (sample_world 4) (late_world 9)
                  eq_refl eq_refl eq_refl eq_refl eq_refl eq_refl)).
Defined.

(** ** Reading the location back *)

Lemma substring_none (s : string) : substring 0 0 s = "".
Proof. destruct s; reflexivity. Qed.

Lemma substring_prefix (a b : string) :
  substring 0 (String.length a) (a +:+ b) = a.
Proof.
  induction a as [| ch a IH]; cbv [append]; fold append.
  - destruct b; reflexivity.
  - cbn [String.length substring]. f_equal. exact IH.
Qed.

Lemma length_append (a b : string) :
  String.length (a +:+ b) = (String.length a + String.length b)%nat.
Proof.
  induction a as [| ch a IH]; cbv [append]; fold append.
  - reflexivity.
  - cbn [String.length]. rewrite IH. reflexivity.
Qed.

Lemma substring_suffix (a b : string) :
  substring (String.length a) (String.length b) (a +:+ b) = b.
Proof.
  induction a as [| ch a IH]; cbv [append]; fold append.
  - cbn [String.length]. rewrite <- (substring_prefix b "") at 2.
    clear. induction b as [| ch b IH]; [reflexivity |].
    cbv [append]; fold append. cbn [String.length substring].
    f_equal. rewrite IH at 1. reflexivity.
  - cbn [String.length substring]. exact IH.
Qed.

(** X3: the text [get_weather] returns can be taken apart again: it is 47
    bytes longer than the location, starts with the 15 bytes of
    "The weather in ", holds the location at bytes 15 onwards, and ends
    with the fixed 32 bytes.  No location, be it empty or containing the
    fixed words itself, is altered or escaped. *)
Theorem get_weather_report_reads_back (location : string) (w : World)
        (s : string) :
  result (run_tool (get_weather location) w) = Ok s ->
  String.length s = (String.length location + 47)%nat
  /\ substring 0 15 s = "The weather in "
  /\ substring 15 (String.length location) s = location
  /\ substring (15 + String.length location) 32 s
     = " is cloudy with a high of 15°C.".
Proof.
  pose proof (run_get_weather location w) as Hrun. cbv zeta in Hrun.
  rewrite Hrun. cbn [result].
  destruct (weather_draw w >? 7); [discriminate |].
  intros H. injection H as <-. unfold weather_report.
  cbv [append]; fold append.
  split; [| split; [| split]].
  - cbn [String.length]. rewrite length_append. cbn [String.length]. lia.
  - cbn [substring]. rewrite substring_none. reflexivity.
  - cbn [substring]. apply substring_prefix.
  - cbn [Nat.add substring].
    apply (substring_suffix location " is cloudy with a high of 15°C.").
Qed.

Lemma get_weather_report_reads_back_witness :
  result (run_tool (get_weather "") (sample_world 4))
  = Ok "The weather in  is cloudy with a high of 15°C."
  /\ substring 15 9 "The weather in Cairo, is is cloudy with a high of 15°C."
     = "Cairo, is".
Proof.
  split; [reflexivity |].
  exact (proj1 (proj2 (proj2
           (get_weather_report_reads_back "Cairo, is" (sample_world 4) _
              eq_refl)))).
Defined.

(** ** Failures while the module sets up *)

(** X6: a failure while the module sets up ends the script on the spot.
    When [setup_observability] raises, it is the only call made: the
    environment is not even read.  When the client constructor raises, the
    six calls up to it are all there is: no agent is constructed, no
    prompt is sent and nothing is printed.  In both cases the exception is
    the result of the script and the world is as the failing call left
    it. *)
Theorem setup_failure_stops_the_script (c : Collaborators) (w : World) :
  let run := run_driver c script w in
  (forall e w1,
      setup_observability_impl c true ["otlp"] w = (Raised e, w1) ->
      result run = Raised e /\ final run = w1
      /\ calls run = [existT _ (SetupObservability true ["otlp"])])
  /\ (forall w1 loaded w2 e w3,
        setup_observability_impl c true ["otlp"] w = (Ok tt, w1) ->
        load_dotenv_impl c w1 = (Ok loaded, w2) ->
        client_init_impl c
          (mkClient (environ w2 !! "GITHUB_ENDPOINT")
                    (environ w2 !! "GITHUB_TOKEN")
                    (environ w2 !! "GITHUB_MODEL_ID")) w2 = (Raised e, w3) ->
        result run = Raised e /\ final run = w3
        /\ length (calls run) = 6%nat
        /\ agent_ctor_calls (calls run) = []
        /\ run_calls (calls run) = []
        /\ print_calls (calls run) = []).
Proof.
  intros run. subst run.
  pose proof (run_script c w) as Hscript. cbv zeta in Hscript.
  rewrite Hscript. clear Hscript.
  pose proof (run_module_setup c w) as Hsetup. cbv zeta in Hsetup.
  split.
  - intros e w1 Hobs. rewrite Hobs in Hsetup. rewrite Hsetup.
    repeat split.
  - intros w1 loaded w2 e w3 Hobs Hdotenv Hclient.
    rewrite Hobs, Hdotenv, Hclient in Hsetup. rewrite Hsetup.
    repeat split.
Qed.

Lemma setup_failure_stops_the_script_witness :
  (let run := run_driver (strict_client_collaborators
                            (canned_run sample_messages))
                         script (sample_world 0) in
   result run = Raised missing_key_error /\ run_calls (calls run) = [])
  /\ (let run := run_driver (strict_client_collaborators
                               (canned_run sample_messages))
                            script token_only_world in
      result run = Ok tt)
  /\ (let run := run_driver no_telemetry_collaborators script
                            (sample_world 0) in
      length (calls run) = 1%nat).
Proof.
  split; [| split].
  - destruct (setup_failure_stops_the_script
                (strict_client_collaborators (canned_run sample_messages))
                (sample_world 0)) as [_ Hclient].
    destruct (Hclient (sample_world 0) true (sample_world 0)
                missing_key_error (sample_world 0)
                eq_refl eq_refl eq_refl)
      as (Hres & _ & _ & _ & Hrun & _).
    split; [exact Hres | exact Hrun].
  - reflexivity.
  - destruct (setup_failure_stops_the_script
                no_telemetry_collaborators (sample_world 0)) as [Hobs _].
    destruct (Hobs _ (sample_world 0) eq_refl) as (_ & _ & Hcalls).
    cbv zeta. rewrite Hcalls. reflexivity.
Defined.

(** ** The calls of a successful run *)


